(** * PlainGdbAdapter: the adapter state machine of the gdb plugin

    A shallow embedding of [src/plugins/debugger/gdb/plaingdbadapter.cpp].
    Every member function of [PlainGdbAdapter] becomes a computation in a
    small state-and-log monad: the state is what the adapter owns (the
    lifecycle state, the output collector, the gdb process), the log is the
    ordered list of effects the function has on its collaborators (commands
    posted to the engine, signals emitted, debug output, process calls). *)

From Stdlib Require Import String Ascii List ZArith Bool Lia DecimalString.
Import ListNotations.
Local Open Scope string_scope.

(** ** Data model *)

(** Modelled from the spec: the state enumeration is declared in a header
    that is not under src/.  The constructors are the names the adapter uses
    ([EngineStarting] .. [AdapterShuttingDown]); [AdapterShutDown] is the
    terminal state of the specification's list, which the adapter never
    names. *)
Inductive AdapterState : Set :=
  | EngineStarting
  | AdapterStarting
  | AdapterStarted
  | InferiorPreparing
  | InferiorPrepared
  | InferiorPreparationFailed
  | InferiorStarting
  | InferiorRunningRequested
  | InferiorRunning
  | InferiorStartFailed
  | InferiorStopping
  | InferiorStopped
  | InferiorShuttingDown
  | InferiorShutDown
  | InferiorShutdownFailed
  | AdapterShuttingDown
  | AdapterShutDown.

Scheme Equality for AdapterState.

(** Modelled from the spec: the result classification of a response
    ([resultClass] is one of Done, Running, Error, Exit); the enumeration is
    declared with the response type, outside src/. *)
Inductive GdbResultClass : Set :=
  | GdbResultDone
  | GdbResultRunning
  | GdbResultError
  | GdbResultExit.

Scheme Equality for GdbResultClass.

(** Modelled from the spec: the payload of a response is a key->value tree.
    A node has a name, a value and children. *)
#[local] Unset Elimination Schemes.
Inductive GdbMi : Set :=
  | MkGdbMi (m_name : string) (m_data : string) (m_children : list GdbMi).
#[local] Set Elimination Schemes.

Definition name_of (m : GdbMi) : string :=
  match m with MkGdbMi n _ _ => n end.

Definition data (m : GdbMi) : string :=
  match m with MkGdbMi _ d _ => d end.

Definition children (m : GdbMi) : list GdbMi :=
  match m with MkGdbMi _ _ c => c end.

Definition emptyGdbMi : GdbMi := MkGdbMi "" "" [].

(** Modelled from the spec: [findChild] is declared with the payload type,
    outside src/.  It looks up a key among the direct children; a missing key
    yields the empty node, whose value is the empty string. *)
Definition findChild (m : GdbMi) (key : string) : GdbMi :=
  match find (fun c => String.eqb (name_of c) key) (children m) with
  | Some c => c
  | None => emptyGdbMi
  end.

Record GdbResponse : Set := {
  resultClass : GdbResultClass;
  response_data : GdbMi
}.

Record StartParameters : Set := {
  executable : string;
  processArgs : list string;
  workingDir : string;
  environment : list string
}.

(** [QProcess::ProcessError] and [QProcess::ExitStatus]. *)
Inductive ProcessError : Set :=
  | FailedToStart | Crashed | Timedout | ReadError | WriteError | UnknownError.

Inductive ExitStatus : Set := NormalExit | CrashExit.

(** The continuations a command can carry: [CB(callback)] in the source. *)
Inductive AdapterCallback : Set :=
  | cb_handleFileExecAndSymbols
  | cb_handleExecRun
  | cb_handleKill
  | cb_handleExit.

(** The request-kind tag of [postCommand]. *)
Inductive GdbCommandFlag : Set := NoFlags | RunRequest.

(** The signals of the adapter. *)
Inductive Signal : Set :=
  | adapterStarted
  | adapterStartFailed (msg settingsIdHint : string)
  | adapterCrashed (msg : string)
  | inferiorPrepared
  | inferiorPreparationFailed (msg : string)
  | inferiorStartFailed (msg : string)
  | inferiorShutDown
  | inferiorShutdownFailed (msg : string)
  | adapterShutDown
  | adapterShutdownFailed (msg : string).

(** The effects of the adapter on its collaborators, in program order. *)
Inductive Event : Set :=
  | DebugMessage (msg : string)
  | StatusMessage (msg : string)
  | QtcAssertFailed (cond : string)
  | QDebug (st : AdapterState)
  | SetState (st : AdapterState)
  | PostCommand (cmd : string) (flag : GdbCommandFlag) (cb : option AdapterCallback)
  | Emit (sig : Signal)
  | CollectorListen (ok : bool)
  | CollectorShutdown
  | ProcSetWorkingDirectory (dir : string)
  | ProcSetEnvironment (vars : list string)
  | ProcStart (program : string) (args : list string)
  | InterruptProcess (pid : Z) (ok : bool).

(** What the adapter owns. *)
Record Adapter : Set := {
  m_state : AdapterState;          (* state() *)
  collector_listening : bool;      (* m_outputCollector has its server open *)
  gdbProc_started : bool           (* m_gdbProc.start() was called *)
}.

(** What the adapter reads from its surroundings.  The first group are
    helpers of this repository declared outside src/, taken as parameters;
    the second group is the run-time environment. *)
Record Env : Type := {
  msgInferiorStarted : string;
  msgInferiorStopFailed : string -> string;
  msgGdbStopFailed : string -> string;
  errorMessage : ProcessError -> string;
  responseToString : GdbResponse -> string;
  stateValue : AdapterState -> Z;
  absoluteFilePath : string -> string;

  startParameters : StartParameters;
  gdbLocation : string;
  listen_ok : bool;
  collector_errorString : string;
  collector_serverName : string;
  inferiorPid : Z;
  interruptProcess : Z -> bool
}.

(** ** Strings *)

(** Byte arrays and strings are both [string] here, so the conversions
    [_()] and [__()] of the source are the identity; [tr] is the rendering
    with no translation loaded. *)
Definition tr (s : string) : string := s.

Definition nl : string := String "010"%char EmptyString.
Definition dquote : string := String "034"%char EmptyString.

(** [QString::arg] for a template with the place marker [%1]. *)
Fixpoint qarg (template a : string) : string :=
  match template with
  | EmptyString => EmptyString
  | String "%"%char (String "1"%char rest) => a ++ qarg rest a
  | String c rest => String c (qarg rest a)
  end.

Definition number (z : Z) : string := NilZero.string_of_int (Z.to_int z).

(** The conversion of a 64-bit integer to [int] at a call whose parameter is
    an [int]: the value modulo 2^32, in the range -2^31 .. 2^31 - 1. *)
Definition to_int (z : Z) : Z :=
  ((z + 2147483648) mod 4294967296 - 2147483648)%Z.

Definition isEmpty {A : Type} (l : list A) : bool :=
  match l with [] => true | _ => false end.

Definition isEmptyString (s : string) : bool :=
  match s with EmptyString => true | _ => false end.

(** ** The monad *)

Definition M (A : Type) : Type := Adapter -> A * Adapter * list Event.

Definition ret {A : Type} (a : A) : M A := fun w => (a, w, []).

Definition bind {A B : Type} (m : M A) (k : A -> M B) : M B :=
  fun w =>
    let '(a, w1, l1) := m w in
    let '(b, w2, l2) := k a w1 in
    (b, w2, (l1 ++ l2)%list).

Declare Scope adapter_scope.
Delimit Scope adapter_scope with adapter.
Notation "x <- m ;; k" := (bind m (fun x => k))
  (at level 61, m at next level, right associativity) : adapter_scope.
Notation "m ;; k" := (bind m (fun _ => k))
  (at level 61, right associativity) : adapter_scope.
Local Open Scope adapter_scope.

Definition log (e : Event) : M unit := fun w => (tt, w, [e]).

Definition world_after {A : Type} (m : M A) (w : Adapter) : Adapter :=
  snd (fst (m w)).

Definition events_of {A : Type} (m : M A) (w : Adapter) : list Event :=
  snd (m w).

Definition state_after {A : Type} (m : M A) (w : Adapter) : AdapterState :=
  m_state (world_after m w).

(** The observations the properties talk about. *)
Definition is_assert (e : Event) : bool :=
  match e with QtcAssertFailed _ => true | _ => false end.

Definition flagged (l : list Event) : bool := existsb is_assert l.

Definition posted (l : list Event) : list (string * option AdapterCallback) :=
  flat_map (fun e => match e with
                     | PostCommand c _ cb => [(c, cb)]
                     | _ => []
                     end) l.

Definition emitted (l : list Event) : list Signal :=
  flat_map (fun e => match e with Emit s => [s] | _ => [] end) l.

Definition spawned (l : list Event) : bool :=
  existsb (fun e => match e with ProcStart _ _ => true | _ => false end) l.

Definition signalled (l : list Event) : bool :=
  existsb (fun e => match e with InterruptProcess _ _ => true | _ => false end) l.

Definition state_changes (l : list Event) : list AdapterState :=
  flat_map (fun e => match e with SetState s => [s] | _ => [] end) l.

(** ** The adapter *)

Section PlainGdbAdapter.

Variable env : Env.

(** *** What the member functions are written in *)

(** Modelled from the spec: [state()] and [setState()] belong to the base
    adapter, outside src/.  Exactly one state is current at any time;
    [setState] replaces it. *)
Definition state : M AdapterState := fun w => (m_state w, w, []).

Definition setState (st : AdapterState) : M unit :=
  fun w =>
    (tt,
     {| m_state := st;
        collector_listening := collector_listening w;
        gdbProc_started := gdbProc_started w |},
     [SetState st]).

Definition debugMessage (msg : string) : M unit := log (DebugMessage msg).

Definition showStatusMessage (msg : string) : M unit := log (StatusMessage msg).

Definition emit (sig : Signal) : M unit := log (Emit sig).

(** [m_engine->postCommand(...)]: the command, its request kind and its
    continuation are handed to the engine. *)
Definition postCommand (cmd : string) (flag : GdbCommandFlag)
    (cb : option AdapterCallback) : M unit :=
  log (PostCommand cmd flag cb).

(** [qDebug() << state()], the action of every assertion of this file. *)
Definition qDebug_state : M unit :=
  st <- state ;; log (QDebug st).

(** Modelled from the spec: the macro [QTC_ASSERT(cond, action)] is declared
    in utils/qtcassert.h, outside src/.  A violated condition is reported
    loudly and the action runs; the function then goes on (the source relies
    on it: "Fall through" after [QTC_ASSERT(false, ...)] in [shutdown]). *)
Definition QTC_ASSERT (cond : bool) (text : string) (action : M unit) : M unit :=
  if cond then ret tt else (log (QtcAssertFailed text) ;; action).

(** [m_outputCollector.listen()] and [m_outputCollector.shutdown()].  The
    host decides whether listening succeeds; a failed attempt leaves the
    collector as it was, and shutdown closes it. *)
Definition outputCollector_listen : M bool :=
  fun w =>
    (listen_ok env,
     {| m_state := m_state w;
        collector_listening := listen_ok env || collector_listening w;
        gdbProc_started := gdbProc_started w |},
     [CollectorListen (listen_ok env)]).

Definition outputCollector_shutdown : M unit :=
  fun w =>
    (tt,
     {| m_state := m_state w;
        collector_listening := false;
        gdbProc_started := gdbProc_started w |},
     [CollectorShutdown]).

(** [m_gdbProc.start(program, arguments)]. *)
Definition gdbProc_start (program : string) (args : list string) : M unit :=
  fun w =>
    (tt,
     {| m_state := m_state w;
        collector_listening := collector_listening w;
        gdbProc_started := true |},
     [ProcStart program args]).

Definition when (c : bool) (m : M unit) : M unit := if c then m else ret tt.

(** *** The member functions, in the order of the source *)

Definition startAdapter : M unit :=
  st <- state ;;
  QTC_ASSERT (AdapterState_beq st EngineStarting)
             "state() == EngineStarting" qDebug_state ;;
  setState AdapterStarting ;;
  debugMessage "TRYING TO START ADAPTER" ;;
  let gdbArgs := @nil string in
  let gdbArgs := "mi" :: gdbArgs in
  let gdbArgs := "-i" :: gdbArgs in
  ok <- outputCollector_listen ;;
  if negb ok then
    emit (adapterStartFailed
            (qarg (tr "Cannot set up communication with child process: %1")
                  (collector_errorString env))
            "")
  else
    let gdbArgs := ("--tty=" ++ collector_serverName env) :: gdbArgs in
    when (negb (isEmptyString (workingDir (startParameters env))))
         (log (ProcSetWorkingDirectory (workingDir (startParameters env)))) ;;
    when (negb (isEmpty (environment (startParameters env))))
         (log (ProcSetEnvironment (environment (startParameters env)))) ;;
    gdbProc_start (gdbLocation env) gdbArgs.

Definition handleGdbStarted : M unit :=
  st <- state ;;
  QTC_ASSERT (AdapterState_beq st AdapterStarting)
             "state() == AdapterStarting" qDebug_state ;;
  setState AdapterStarted ;;
  emit adapterStarted.

Definition handleGdbError (error : ProcessError) : M unit :=
  debugMessage "PLAIN ADAPTER, HANDLE GDB ERROR" ;;
  emit (adapterCrashed (errorMessage env error)).

Definition prepareInferior : M unit :=
  st <- state ;;
  QTC_ASSERT (AdapterState_beq st AdapterStarted)
             "state() == AdapterStarted" qDebug_state ;;
  setState InferiorPreparing ;;
  when (negb (isEmpty (processArgs (startParameters env))))
       (postCommand ("-exec-arguments "
                       ++ String.concat " " (processArgs (startParameters env)))
                    NoFlags None) ;;
  let fi := absoluteFilePath env (executable (startParameters env)) in
  postCommand (qarg ("-file-exec-and-symbols " ++ dquote ++ "%1" ++ dquote) fi)
              NoFlags (Some cb_handleFileExecAndSymbols).

Definition handleFileExecAndSymbols (response : GdbResponse) : M unit :=
  st <- state ;;
  QTC_ASSERT (AdapterState_beq st InferiorPreparing)
             "state() == InferiorPreparing" qDebug_state ;;
  if GdbResultClass_beq (resultClass response) GdbResultDone then
    setState InferiorPrepared ;;
    emit inferiorPrepared
  else
    let msg := tr ("Starting executable failed:" ++ nl)
                 ++ data (findChild (response_data response) "msg") in
    setState InferiorPreparationFailed ;;
    emit (inferiorPreparationFailed msg).

Definition handleExecRun (response : GdbResponse) : M unit :=
  if GdbResultClass_beq (resultClass response) GdbResultRunning then
    st <- state ;;
    QTC_ASSERT (AdapterState_beq st InferiorRunning)
               "state() == InferiorRunning" qDebug_state ;;
    debugMessage "INFERIOR STARTED" ;;
    showStatusMessage (msgInferiorStarted env)
  else
    st <- state ;;
    QTC_ASSERT (AdapterState_beq st InferiorRunningRequested)
               "state() == InferiorRunningRequested" qDebug_state ;;
    let msg := data (findChild (response_data response) "msg") in
    setState InferiorStartFailed ;;
    emit (inferiorStartFailed msg).

Definition startInferior : M unit :=
  st <- state ;;
  QTC_ASSERT (AdapterState_beq st InferiorStarting)
             "state() == InferiorStarting" qDebug_state ;;
  setState InferiorRunningRequested ;;
  postCommand "-exec-run" RunRequest (Some cb_handleExecRun).

(** [attachedPID] is a qint64; [interruptProcess] is declared, outside src/,
    with an [int] parameter, so the call narrows the PID. *)
Definition interruptInferior : M unit :=
  debugMessage "TRYING TO INTERUPT INFERIOR" ;;
  let attachedPID := inferiorPid env in
  if (attachedPID <=? 0)%Z then
    debugMessage "TRYING TO INTERRUPT INFERIOR BEFORE PID WAS OBTAINED"
  else
    let ok := interruptProcess env (to_int attachedPID) in
    log (InterruptProcess (to_int attachedPID) ok) ;;
    when (negb ok)
         (debugMessage (qarg "CANNOT INTERRUPT %1" (number attachedPID))).

Definition shutdown : M unit :=
  st <- state ;;
  debugMessage (qarg "PLAIN ADAPTER SHUTDOWN %1" (number (stateValue env st))) ;;
  outputCollector_shutdown ;;
  st <- state ;;
  match st with
  | InferiorRunningRequested
  | InferiorRunning
  | InferiorStopping
  | InferiorStopped =>
      setState InferiorShuttingDown ;;
      postCommand "kill" NoFlags (Some cb_handleKill)
  | InferiorShuttingDown =>
      QTC_ASSERT false "false" qDebug_state ;;
      setState AdapterShuttingDown ;;
      postCommand "-gdb-exit" NoFlags (Some cb_handleExit)
  | InferiorShutDown =>
      setState AdapterShuttingDown ;;
      postCommand "-gdb-exit" NoFlags (Some cb_handleExit)
  | _ =>
      QTC_ASSERT false "false" qDebug_state
  end.

Definition handleKill (response : GdbResponse) : M unit :=
  debugMessage ("PLAIN ADAPTER HANDLE KILL " ++ responseToString env response) ;;
  if GdbResultClass_beq (resultClass response) GdbResultDone then
    setState InferiorShutDown ;;
    emit inferiorShutDown ;;
    shutdown
  else
    let msg := msgInferiorStopFailed env
                 (data (findChild (response_data response) "msg")) in
    setState InferiorShutdownFailed ;;
    emit (inferiorShutdownFailed msg).

Definition handleExit (response : GdbResponse) : M unit :=
  if GdbResultClass_beq (resultClass response) GdbResultDone then
    ret tt
  else
    let msg := msgGdbStopFailed env
                 (data (findChild (response_data response) "msg")) in
    emit (adapterShutdownFailed msg).

Definition handleGdbFinished (exitCode : Z) (status : ExitStatus) : M unit :=
  debugMessage "GDB PROCESS FINISHED" ;;
  emit adapterShutDown.

(** The engine invokes the continuation a command was posted with: the
    member function [CB(callback)] names. *)
Definition invoke (cb : AdapterCallback) (response : GdbResponse) : M unit :=
  match cb with
  | cb_handleFileExecAndSymbols => handleFileExecAndSymbols response
  | cb_handleExecRun => handleExecRun response
  | cb_handleKill => handleKill response
  | cb_handleExit => handleExit response
  end.

End PlainGdbAdapter.

(** ** Operations, and the two tables of accepted states *)

Inductive Operation : Set :=
  | op_startAdapter
  | op_handleGdbStarted
  | op_prepareInferior
  | op_handleFileExecAndSymbols (response : GdbResponse)
  | op_startInferior
  | op_handleExecRun (response : GdbResponse)
  | op_shutdown
  | op_handleKill (response : GdbResponse)
  | op_handleExit (response : GdbResponse).

Definition perform (env : Env) (op : Operation) : M unit :=
  match op with
  | op_startAdapter => startAdapter env
  | op_handleGdbStarted => handleGdbStarted
  | op_prepareInferior => prepareInferior env
  | op_handleFileExecAndSymbols r => handleFileExecAndSymbols r
  | op_startInferior => startInferior
  | op_handleExecRun r => handleExecRun env r
  | op_shutdown => shutdown env
  | op_handleKill r => handleKill env r
  | op_handleExit r => handleExit env r
  end.

(** The precondition column of the specification's transition table, word
    for word (its "Starting" and "Started" are [EngineStarting] and
    [AdapterStarted]); [None] for an operation the table has no row for. *)
Definition spec_precondition (op : Operation) : option (list AdapterState) :=
  match op with
  | op_startAdapter => Some [EngineStarting]
  | op_prepareInferior => Some [AdapterStarted]
  | op_startInferior => Some [InferiorStarting]
  | op_shutdown =>
      Some [InferiorRunning; InferiorStopping; InferiorStopped; InferiorShutDown]
  | op_handleKill _ => Some [InferiorShuttingDown]
  | op_handleExit _ => Some [AdapterShuttingDown]
  | _ => None
  end.

(** The states each member function of the source goes on with and does not
    report: the condition of its [QTC_ASSERT], or the case labels of the
    switch in [shutdown] that do not assert.  [None] where the function
    never looks at the state. *)
Definition asserted_states (op : Operation) : option (list AdapterState) :=
  match op with
  | op_startAdapter => Some [EngineStarting]
  | op_handleGdbStarted => Some [AdapterStarting]
  | op_prepareInferior => Some [AdapterStarted]
  | op_handleFileExecAndSymbols _ => Some [InferiorPreparing]
  | op_startInferior => Some [InferiorStarting]
  | op_handleExecRun r =>
      if GdbResultClass_beq (resultClass r) GdbResultRunning
      then Some [InferiorRunning]
      else Some [InferiorRunningRequested]
  | op_shutdown =>
      Some [InferiorRunningRequested; InferiorRunning; InferiorStopping;
            InferiorStopped; InferiorShutDown]
  | op_handleKill _ => None
  | op_handleExit _ => None
  end.

Definition state_in (st : AdapterState) (l : list AdapterState) : bool :=
  existsb (AdapterState_beq st) l.

(** ** Scenarios and sample inputs *)

Definition with_state (st : AdapterState) (w : Adapter) : Adapter :=
  {| m_state := st;
     collector_listening := collector_listening w;
     gdbProc_started := gdbProc_started w |}.








(** [prepareInferior] and then the reply to [-file-exec-and-symbols]. *)
Definition prepareInferior_then (env : Env) (reply : GdbResponse) : M unit :=
  prepareInferior env ;; invoke env cb_handleFileExecAndSymbols reply.

Definition reply (c : GdbResultClass) (payload : list GdbMi) : GdbResponse :=
  {| resultClass := c; response_data := MkGdbMi "" "" payload |}.

Definition done : GdbResponse := reply GdbResultDone [].


Definition error (msg : string) : GdbResponse :=
  reply GdbResultError [MkGdbMi "msg" msg []].

Definition message_of (r : GdbResponse) : string :=
  data (findChild (response_data r) "msg").

(** A host on which the collector cannot listen and no inferior has a PID
    yet. *)
Definition bare_host : Env :=
  {| msgInferiorStarted := "Inferior started.";
     msgInferiorStopFailed := fun why => "Inferior process could not be stopped:" ++ nl ++ why;
     msgGdbStopFailed := fun why => "Gdb process could not be stopped:" ++ nl ++ why;
     errorMessage := fun _ => "An unknown error in the Gdb process occurred.";
     responseToString := fun r => message_of r;
     stateValue := fun _ => 0%Z;
     absoluteFilePath := fun p => p;
     startParameters :=
       {| executable := "/tmp/a.out"; processArgs := ["-v"];
          workingDir := ""; environment := [] |};
     gdbLocation := "gdb";
     listen_ok := false;
     collector_errorString := "address in use";
     collector_serverName := "";
     inferiorPid := 0;
     interruptProcess := fun _ => false |}.

Definition adapter_in (st : AdapterState) : Adapter :=
  {| m_state := st; collector_listening := true; gdbProc_started := true |}.

Definition fresh_adapter : Adapter :=
  {| m_state := EngineStarting; collector_listening := false;
     gdbProc_started := false |}.

(** ** Calls and runs *)

(** A call of any member function of the adapter: the operations above, and
    the three member functions that never look at the state. *)
Inductive Call : Set :=
  | call_op (op : Operation)
  | call_handleGdbError (error : ProcessError)
  | call_interruptInferior
  | call_handleGdbFinished (exitCode : Z) (status : ExitStatus).

Definition call (env : Env) (c : Call) : M unit :=
  match c with
  | call_op op => perform env op
  | call_handleGdbError e => handleGdbError env e
  | call_interruptInferior => interruptInferior env
  | call_handleGdbFinished code status => handleGdbFinished code status
  end.

(** Member functions called one after the other on the same adapter. *)
Fixpoint run_calls (env : Env) (cs : list Call) : M unit :=
  match cs with
  | [] => ret tt
  | c :: rest => call env c ;; run_calls env rest
  end.

Definition shutdown_call : Call := call_op op_shutdown.

Definition startAdapter_call : Call := call_op op_startAdapter.

(** The arguments of every [setState] call in the source. *)
Definition settable_states : list AdapterState :=
  [AdapterStarting; AdapterStarted; InferiorPreparing; InferiorPrepared;
   InferiorPreparationFailed; InferiorRunningRequested; InferiorStartFailed;
   InferiorShuttingDown; InferiorShutDown; InferiorShutdownFailed;
   AdapterShuttingDown].

(** The case labels of the switch in [shutdown] that post a command. *)
Definition shutdown_acts (st : AdapterState) : bool :=
  match st with
  | InferiorRunningRequested | InferiorRunning | InferiorStopping
  | InferiorStopped | InferiorShuttingDown | InferiorShutDown => true
  | _ => false
  end.

(** The programs [m_gdbProc.start] was called with, and their arguments. *)
Definition started_with (l : list Event) : list (string * list string) :=
  flat_map (fun e => match e with
                     | ProcStart program args => [(program, args)]
                     | _ => []
                     end) l.

(** The processes [interruptProcess] was called on. *)
Definition interrupted (l : list Event) : list Z :=
  flat_map (fun e => match e with
                     | InterruptProcess pid _ => [pid]
                     | _ => []
                     end) l.

(** The start of a session up to the loaded executable: [startAdapter], the
    start of the gdb process, [prepareInferior] and the reply to
    "-file-exec-and-symbols". *)
Definition startup (env : Env) (reply : GdbResponse) : M unit :=
  startAdapter env ;;
  handleGdbStarted ;;
  prepareInferior_then env reply.

(** A host on which the collector listens and the inferior has a PID that
    cannot be interrupted. *)
Definition live_host : Env :=
  {| msgInferiorStarted := "Inferior started.";
     msgInferiorStopFailed := fun why => "Inferior process could not be stopped:" ++ nl ++ why;
     msgGdbStopFailed := fun why => "Gdb process could not be stopped:" ++ nl ++ why;
     errorMessage := fun _ => "An unknown error in the Gdb process occurred.";
     responseToString := fun r => message_of r;
     stateValue := fun _ => 0%Z;
     absoluteFilePath := fun p => "/home/user/" ++ p;
     startParameters :=
       {| executable := "a.out"; processArgs := ["-v"; "input.txt"];
          workingDir := "/home/user"; environment := ["LANG=C"] |};
     gdbLocation := "/usr/bin/gdb";
     listen_ok := true;
     collector_errorString := "";
     collector_serverName := "/tmp/collector";
     inferiorPid := 4242;
     interruptProcess := fun _ => false |}.

(** A text without per cent sign holds no place marker. *)
Fixpoint no_percent (s : string) : bool :=
  match s with
  | EmptyString => true
  | String c rest => negb (Ascii.eqb c "%") && no_percent rest
  end.

(** ** Properties *)

Section Properties.

Variable env : Env.

Ltac world w := destruct w as [st listening started]; simpl in *; subst.

(** *** Helper facts *)


Lemma GdbResultClass_beq_neq (a b : GdbResultClass) :
  GdbResultClass_beq a b = false <-> a <> b.
Proof.
  destruct a, b; simpl; split; intro H;
    try reflexivity; try discriminate H; try (intro E; discriminate E);
    exfalso; apply H; reflexivity.
Qed.

Lemma flagged_app (l1 l2 : list Event) :
  flagged (l1 ++ l2)%list = flagged l1 || flagged l2.
Proof. apply existsb_app. Qed.

(** The exit of the gdb process is announced and nothing else happens: the
    handler leaves the adapter as it is. *)
Lemma handleGdbFinished_frame (code : Z) (status : ExitStatus) (w : Adapter) :
  world_after (handleGdbFinished code status) w = w /\
  events_of (handleGdbFinished code status) w =
    [DebugMessage "GDB PROCESS FINISHED"; Emit adapterShutDown].
Proof. split; reflexivity. Qed.

(** What [shutdown] does from the state the kill handler leaves. *)
Lemma shutdown_from_InferiorShutDown (w : Adapter) :
  m_state w = InferiorShutDown ->
  shutdown env w =
    (tt,
     {| m_state := AdapterShuttingDown;
        collector_listening := false;
        gdbProc_started := gdbProc_started w |},
     [DebugMessage (qarg "PLAIN ADAPTER SHUTDOWN %1"
                         (number (stateValue env InferiorShutDown)));
      CollectorShutdown;
      SetState AdapterShuttingDown;
      PostCommand "-gdb-exit" NoFlags (Some cb_handleExit)]).
Proof. intro H. world w. reflexivity. Qed.

(** The two reply handlers of the teardown never look at the state. *)
Lemma handleKill_handleExit_never_flag (r : GdbResponse) (w : Adapter) :
  flagged (events_of (handleKill env r) w) = false /\
  flagged (events_of (handleExit env r) w) = false.
Proof.
  unfold events_of, handleKill, handleExit.
  destruct r as [c payload]; destruct c; split; reflexivity.
Qed.

(** *** Shutdown *)

(** C1.  Every call of [shutdown] in one of the states InferiorRunning,
    InferiorStopping, InferiorStopped sets the state to InferiorShuttingDown
    and posts the command "kill" (continuation [handleKill]); every call in
    state InferiorShutDown sets the state to AdapterShuttingDown and posts
    "-gdb-exit" (continuation [handleExit]).  In both cases this is the only
    state change and the only command. *)
Theorem shutdown_kill_or_exit (w : Adapter) :
  (In (m_state w) [InferiorRunning; InferiorStopping; InferiorStopped] ->
     state_after (shutdown env) w = InferiorShuttingDown /\
     state_changes (events_of (shutdown env) w) = [InferiorShuttingDown] /\
     posted (events_of (shutdown env) w) = [("kill", Some cb_handleKill)]) /\
  (m_state w = InferiorShutDown ->
     state_after (shutdown env) w = AdapterShuttingDown /\
     state_changes (events_of (shutdown env) w) = [AdapterShuttingDown] /\
     posted (events_of (shutdown env) w) = [("-gdb-exit", Some cb_handleExit)]).
Proof.
  split.
  - intro H. world w.
    destruct H as [H | [H | [H | []]]]; subst; repeat split; reflexivity.
  - intro H. unfold state_after, world_after, events_of.
    rewrite (shutdown_from_InferiorShutDown w H). repeat split; reflexivity.
Qed.


(** C9.  Every call of [shutdown], whatever the state, tears the output
    collector down before it looks at the state: the collector is no longer
    listening afterwards, and its shutdown is the second effect of the call,
    right after the debug message. *)
Theorem shutdown_tears_collector_down (w : Adapter) :
  collector_listening (world_after (shutdown env) w) = false /\
  exists branch : list Event,
    events_of (shutdown env) w =
      DebugMessage (qarg "PLAIN ADAPTER SHUTDOWN %1"
                         (number (stateValue env (m_state w))))
      :: CollectorShutdown :: branch.
Proof.
  world w. destruct st; split; solve [reflexivity | eexists; reflexivity].
Qed.

(** C7.  The reply to "kill" arriving in state InferiorShuttingDown.  On
    Done the handler sets InferiorShutDown, emits inferiorShutDown and calls
    [shutdown] again from that state (which posts "-gdb-exit" and leaves the
    adapter in AdapterShuttingDown).  On any other reply it sets
    InferiorShutdownFailed and emits inferiorShutdownFailed with the text
    made from the reply's msg field. *)
Theorem handleKill_reply (w : Adapter) (r : GdbResponse) :
  m_state w = InferiorShuttingDown ->
  (resultClass r = GdbResultDone ->
     events_of (handleKill env r) w =
       ([DebugMessage ("PLAIN ADAPTER HANDLE KILL " ++ responseToString env r);
         SetState InferiorShutDown;
         Emit inferiorShutDown]
        ++ events_of (shutdown env) (with_state InferiorShutDown w))%list /\
     world_after (handleKill env r) w =
       world_after (shutdown env) (with_state InferiorShutDown w) /\
     posted (events_of (handleKill env r) w) =
       [("-gdb-exit", Some cb_handleExit)] /\
     state_after (handleKill env r) w = AdapterShuttingDown) /\
  (resultClass r <> GdbResultDone ->
     events_of (handleKill env r) w =
       [DebugMessage ("PLAIN ADAPTER HANDLE KILL " ++ responseToString env r);
        SetState InferiorShutdownFailed;
        Emit (inferiorShutdownFailed
                (msgInferiorStopFailed env (message_of r)))] /\
     state_after (handleKill env r) w = InferiorShutdownFailed).
Proof.
  intro Hw. split; intro Hr.
  - world w. unfold events_of, world_after, state_after, handleKill, bind.
    rewrite Hr. simpl. repeat split; reflexivity.
  - apply GdbResultClass_beq_neq in Hr.
    world w. unfold events_of, world_after, state_after, handleKill, bind.
    rewrite Hr. split; reflexivity.
Qed.

(** C10.  The handler of the reply to "-gdb-exit" never changes the adapter.
    On Done it has no effect at all; on any other reply its only effect is
    the signal adapterShutdownFailed with the text made from the reply's msg
    field. *)
Theorem handleExit_keeps_state (w : Adapter) (r : GdbResponse) :
  world_after (handleExit env r) w = w /\
  state_changes (events_of (handleExit env r) w) = [] /\
  (resultClass r = GdbResultDone -> events_of (handleExit env r) w = []) /\
  (resultClass r <> GdbResultDone ->
     events_of (handleExit env r) w =
       [Emit (adapterShutdownFailed (msgGdbStopFailed env (message_of r)))]).
Proof.
  unfold world_after, events_of, handleExit.
  destruct r as [c payload]; destruct c; simpl;
    repeat split; try reflexivity; intro H;
    solve [discriminate H | exfalso; apply H; reflexivity].
Qed.

(** *** Start-up *)

(** C4, as the code has it.  When the output collector cannot listen,
    [startAdapter] has already set the state to AdapterStarting; it then
    emits adapterStartFailed once, with the collector's error text, and
    returns: the gdb process is not started and the state is not advanced
    further.  The effects are, in this order: the report of the assertion
    when the state is not EngineStarting, the state change, the debug
    message, the failed listen and the signal. *)
Theorem startAdapter_listen_failure (w : Adapter) :
  listen_ok env = false ->
  state_after (startAdapter env) w = AdapterStarting /\
  state_changes (events_of (startAdapter env) w) = [AdapterStarting] /\
  emitted (events_of (startAdapter env) w) =
    [adapterStartFailed
       (qarg (tr "Cannot set up communication with child process: %1")
             (collector_errorString env))
       ""] /\
  spawned (events_of (startAdapter env) w) = false /\
  gdbProc_started (world_after (startAdapter env) w) = gdbProc_started w /\
  events_of (startAdapter env) w =
    ((if AdapterState_beq (m_state w) EngineStarting then []
      else [QtcAssertFailed "state() == EngineStarting"; QDebug (m_state w)])
     ++ [SetState AdapterStarting;
         DebugMessage "TRYING TO START ADAPTER";
         CollectorListen false;
         Emit (adapterStartFailed
                 (qarg (tr "Cannot set up communication with child process: %1")
                       (collector_errorString env))
                 "")])%list /\
  world_after (startAdapter env) w = with_state AdapterStarting w.
Proof.
  intro H. world w.
  unfold state_after, world_after, events_of, startAdapter, bind,
    outputCollector_listen.
  rewrite H. destruct st; repeat split; reflexivity.
Qed.

(** C5.  [prepareInferior] called in AdapterStarted, then an Error reply to
    "-file-exec-and-symbols" whose msg field is "file not found": the state
    becomes InferiorPreparationFailed and the one signal emitted is
    inferiorPreparationFailed with the text "Starting executable failed:",
    a line feed, "file not found".  No assertion fires on the way. *)
Theorem prepareInferior_file_not_found (w : Adapter) (r : GdbResponse) :
  m_state w = AdapterStarted ->
  resultClass r = GdbResultError ->
  message_of r = "file not found" ->
  state_after (prepareInferior_then env r) w = InferiorPreparationFailed /\
  emitted (events_of (prepareInferior_then env r) w) =
    [inferiorPreparationFailed
       ("Starting executable failed:" ++ nl ++ "file not found")] /\
  state_changes (events_of (prepareInferior_then env r) w) =
    [InferiorPreparing; InferiorPreparationFailed] /\
  flagged (events_of (prepareInferior_then env r) w) = false.
Proof.
  intros Hw Hc Hm. world w. unfold message_of in Hm.
  unfold state_after, world_after, events_of, prepareInferior_then,
    prepareInferior, invoke, handleFileExecAndSymbols, bind, when.
  destruct (processArgs (startParameters env)); simpl;
    rewrite Hc; simpl; rewrite Hm; repeat split; reflexivity.
Qed.


(** C6.  [interruptInferior] with no positive inferior PID writes its two
    debug messages and returns: the adapter is unchanged, no process is
    signalled, no signal of the adapter is emitted. *)
Theorem interruptInferior_without_pid (w : Adapter) :
  (inferiorPid env <= 0)%Z ->
  world_after (interruptInferior env) w = w /\
  events_of (interruptInferior env) w =
    [DebugMessage "TRYING TO INTERUPT INFERIOR";
     DebugMessage "TRYING TO INTERRUPT INFERIOR BEFORE PID WAS OBTAINED"] /\
  signalled (events_of (interruptInferior env) w) = false /\
  emitted (events_of (interruptInferior env) w) = [] /\
  state_changes (events_of (interruptInferior env) w) = [].
Proof.
  intro H. apply Z.leb_le in H.
  unfold world_after, events_of, interruptInferior, bind.
  simpl. rewrite H. repeat split; reflexivity.
Qed.

(** *** Assertions *)

(** C3, as the code has it.  Each member function that checks the state
    reports a violated assertion exactly when the state is outside the
    states it checks for: EngineStarting for [startAdapter], AdapterStarting
    for [handleGdbStarted], AdapterStarted for [prepareInferior],
    InferiorPreparing for [handleFileExecAndSymbols], InferiorStarting for
    [startInferior], InferiorRunning or InferiorRunningRequested (by the
    class of the reply) for [handleExecRun], and for [shutdown] the states
    InferiorRunningRequested, InferiorRunning, InferiorStopping,
    InferiorStopped and InferiorShutDown. *)
Theorem assertion_fires_outside_asserted_states
    (op : Operation) (accepted : list AdapterState) (w : Adapter) :
  asserted_states op = Some accepted ->
  flagged (events_of (perform env op) w) = negb (state_in (m_state w) accepted).
Proof.
  intro H. world w.
  destruct op; simpl in H; try discriminate H; unfold events_of, perform.
  - inversion H; subst; clear H.
    unfold startAdapter, bind, outputCollector_listen, when.
    destruct (listen_ok env);
      destruct (workingDir (startParameters env));
      destruct (environment (startParameters env));
      destruct st; reflexivity.
  - inversion H; subst; clear H. destruct st; reflexivity.
  - inversion H; subst; clear H.
    unfold prepareInferior, bind, when.
    destruct (processArgs (startParameters env)); destruct st; reflexivity.
  - inversion H; subst; clear H.
    unfold handleFileExecAndSymbols, bind.
    destruct (GdbResultClass_beq (resultClass response) GdbResultDone);
      destruct st; reflexivity.
  - inversion H; subst; clear H. destruct st; reflexivity.
  - unfold handleExecRun, bind.
    destruct (GdbResultClass_beq (resultClass response) GdbResultRunning);
      inversion H; subst; clear H; destruct st; reflexivity.
  - inversion H; subst; clear H. destruct st; reflexivity.
Qed.

End Properties.

(** ** The theorems at sample inputs *)

Lemma shutdown_kill_or_exit_witness :
  (In (m_state (adapter_in InferiorStopping))
      [InferiorRunning; InferiorStopping; InferiorStopped] /\
   state_after (shutdown bare_host) (adapter_in InferiorStopping)
     = InferiorShuttingDown /\
   posted (events_of (shutdown bare_host) (adapter_in InferiorStopping))
     = [("kill", Some cb_handleKill)]) /\
  (m_state (adapter_in InferiorShutDown) = InferiorShutDown /\
   state_after (shutdown bare_host) (adapter_in InferiorShutDown)
     = AdapterShuttingDown /\
   posted (events_of (shutdown bare_host) (adapter_in InferiorShutDown))
     = [("-gdb-exit", Some cb_handleExit)]).
Proof.
  assert (H1 : In (m_state (adapter_in InferiorStopping))
                  [InferiorRunning; InferiorStopping; InferiorStopped])
    by (simpl; auto).
  assert (H2 : m_state (adapter_in InferiorShutDown) = InferiorShutDown)
    by reflexivity.
  split.
  - split; [exact H1 |].
    destruct (proj1 (shutdown_kill_or_exit bare_host _) H1) as [Hs [_ Hp]].
    split; assumption.
  - split; [exact H2 |].
    destruct (proj2 (shutdown_kill_or_exit bare_host _) H2) as [Hs [_ Hp]].
    split; assumption.
Defined.


Lemma handleKill_reply_witness :
  m_state (adapter_in InferiorShuttingDown) = InferiorShuttingDown /\
  state_after (handleKill bare_host done) (adapter_in InferiorShuttingDown)
    = AdapterShuttingDown /\
  state_after (handleKill bare_host (error "no process"))
              (adapter_in InferiorShuttingDown)
    = InferiorShutdownFailed.
Proof.
  split; [reflexivity | split].
  - apply (proj1 (handleKill_reply bare_host
                    (adapter_in InferiorShuttingDown) done eq_refl)).
    reflexivity.
  - apply (proj2 (handleKill_reply bare_host
                    (adapter_in InferiorShuttingDown) (error "no process")
                    eq_refl)).
    simpl. discriminate.
Defined.

Lemma handleExit_keeps_state_witness :
  events_of (handleExit bare_host done) (adapter_in AdapterShuttingDown) = [] /\
  events_of (handleExit bare_host (error "busy")) (adapter_in AdapterShuttingDown)
    = [Emit (adapterShutdownFailed
               (msgGdbStopFailed bare_host (message_of (error "busy"))))] /\
  world_after (handleExit bare_host (error "busy"))
              (adapter_in AdapterShuttingDown)
    = adapter_in AdapterShuttingDown.
Proof.
  split; [| split].
  - apply (handleExit_keeps_state bare_host (adapter_in AdapterShuttingDown) done).
    reflexivity.
  - apply (handleExit_keeps_state bare_host (adapter_in AdapterShuttingDown)
             (error "busy")).
    simpl. discriminate.
  - apply (handleExit_keeps_state bare_host (adapter_in AdapterShuttingDown)
             (error "busy")).
Defined.

Lemma startAdapter_listen_failure_witness :
  listen_ok bare_host = false /\
  state_after (startAdapter bare_host) fresh_adapter = AdapterStarting /\
  spawned (events_of (startAdapter bare_host) fresh_adapter) = false.
Proof.
  split; [reflexivity |].
  destruct (startAdapter_listen_failure bare_host fresh_adapter eq_refl)
    as [Hs [_ [_ [Hp _]]]].
  split; assumption.
Defined.

Lemma prepareInferior_file_not_found_witness :
  m_state (adapter_in AdapterStarted) = AdapterStarted /\
  resultClass (error "file not found") = GdbResultError /\
  message_of (error "file not found") = "file not found" /\
  emitted (events_of (prepareInferior_then bare_host (error "file not found"))
                     (adapter_in AdapterStarted))
    = [inferiorPreparationFailed
         ("Starting executable failed:" ++ nl ++ "file not found")].
Proof.
  split; [reflexivity | split; [reflexivity | split; [reflexivity |]]].
  apply (prepareInferior_file_not_found bare_host
           (adapter_in AdapterStarted) (error "file not found"));
    reflexivity.
Defined.


Lemma interruptInferior_without_pid_witness :
  (inferiorPid bare_host <= 0)%Z /\
  world_after (interruptInferior bare_host) (adapter_in InferiorRunning)
    = adapter_in InferiorRunning /\
  signalled (events_of (interruptInferior bare_host)
                       (adapter_in InferiorRunning)) = false.
Proof.
  assert (H : (inferiorPid bare_host <= 0)%Z) by (simpl; lia).
  split; [exact H |].
  destruct (interruptInferior_without_pid bare_host
              (adapter_in InferiorRunning) H) as [Hw [_ [Hs _]]].
  split; assumption.
Defined.

Lemma assertion_fires_outside_asserted_states_witness :
  asserted_states op_shutdown
    = Some [InferiorRunningRequested; InferiorRunning; InferiorStopping;
            InferiorStopped; InferiorShutDown] /\
  flagged (events_of (perform bare_host op_shutdown) (adapter_in AdapterStarted))
    = true.
Proof.
  split; [reflexivity |].
  apply (assertion_fires_outside_asserted_states bare_host op_shutdown
           [InferiorRunningRequested; InferiorRunning; InferiorStopping;
            InferiorStopped; InferiorShutDown]
           (adapter_in AdapterStarted)).
  reflexivity.
Defined.

(** ** Where the code departs from the wording of a claim *)

(** C3 as worded fails: InferiorRunningRequested is not among the states the
    transition table lists for [shutdown], yet [shutdown] called in it
    reports nothing and carries out the transition to InferiorShuttingDown,
    posting "kill". *)
Lemma shutdown_accepts_InferiorRunningRequested :
  spec_precondition op_shutdown
    = Some [InferiorRunning; InferiorStopping; InferiorStopped;
            InferiorShutDown] /\
  state_in InferiorRunningRequested
    [InferiorRunning; InferiorStopping; InferiorStopped; InferiorShutDown]
    = false /\
  flagged (events_of (perform bare_host op_shutdown)
                     (adapter_in InferiorRunningRequested)) = false /\
  state_after (perform bare_host op_shutdown)
              (adapter_in InferiorRunningRequested) = InferiorShuttingDown /\
  posted (events_of (perform bare_host op_shutdown)
                    (adapter_in InferiorRunningRequested))
    = [("kill", Some cb_handleKill)].
Proof. repeat split; reflexivity. Qed.

(** C4 as worded fails: with a collector that cannot listen, [startAdapter]
    called in EngineStarting leaves the adapter in AdapterStarting, not in
    the state it was called in. *)
Lemma startAdapter_listen_failure_changes_state :
  listen_ok bare_host = false /\
  m_state fresh_adapter = EngineStarting /\
  state_after (startAdapter bare_host) fresh_adapter = AdapterStarting /\
  state_after (startAdapter bare_host) fresh_adapter <> m_state fresh_adapter.
Proof.
  repeat split; try reflexivity. intro H. discriminate H.
Qed.

(** ** Further properties of the member functions *)

Section Runs.

Variable env : Env.

Ltac world w := destruct w as [st listening started]; simpl in *; subst.

(** Splits on everything a member function reads from its surroundings. *)
Ltac reads :=
  repeat match goal with
  | |- context [listen_ok env] => destruct (listen_ok env) eqn:?
  | |- context [isEmptyString (workingDir (startParameters env))] =>
      destruct (workingDir (startParameters env))
  | |- context [isEmpty (environment (startParameters env))] =>
      destruct (environment (startParameters env))
  | |- context [isEmpty (processArgs (startParameters env))] =>
      destruct (processArgs (startParameters env))
  | |- context [GdbResultClass_beq (resultClass ?r) ?c] =>
      destruct (GdbResultClass_beq (resultClass r) c) eqn:?
  | |- context [(inferiorPid env <=? 0)%Z] =>
      destruct (inferiorPid env <=? 0)%Z eqn:?
  | |- context [interruptProcess env (to_int (inferiorPid env))] =>
      destruct (interruptProcess env (to_int (inferiorPid env)))
  end.

Ltac open_call :=
  unfold state_after, world_after, events_of, call, perform, shutdown_call,
    startAdapter_call, startAdapter, handleGdbStarted, handleGdbError,
    prepareInferior, handleFileExecAndSymbols, handleExecRun, startInferior,
    interruptInferior, shutdown, handleKill, handleExit, handleGdbFinished,
    outputCollector_listen, bind, when in *.

(** *** Sequencing *)

Lemma events_of_seq (m k : M unit) (w : Adapter) :
  events_of (m ;; k) w = (events_of m w ++ events_of k (world_after m w))%list.
Proof.
  unfold events_of, world_after, bind.
  destruct (m w) as [[a w1] l1]. simpl.
  destruct (k w1) as [[b w2] l2]. reflexivity.
Qed.

Lemma world_after_seq (m k : M unit) (w : Adapter) :
  world_after (m ;; k) w = world_after k (world_after m w).
Proof.
  unfold world_after, bind.
  destruct (m w) as [[a w1] l1]. simpl.
  destruct (k w1) as [[b w2] l2]. reflexivity.
Qed.

Lemma run_calls_cons (c : Call) (cs : list Call) :
  run_calls env (c :: cs) = (call env c ;; run_calls env cs).
Proof. reflexivity. Qed.

Lemma world_after_run_app (cs1 cs2 : list Call) (w : Adapter) :
  world_after (run_calls env (cs1 ++ cs2)) w =
  world_after (run_calls env cs2) (world_after (run_calls env cs1) w).
Proof.
  revert w. induction cs1 as [| c cs1 IH]; intro w.
  - reflexivity.
  - simpl. rewrite !world_after_seq. apply IH.
Qed.

Lemma events_of_run_app (cs1 cs2 : list Call) (w : Adapter) :
  events_of (run_calls env (cs1 ++ cs2)) w =
  (events_of (run_calls env cs1) w
   ++ events_of (run_calls env cs2) (world_after (run_calls env cs1) w))%list.
Proof.
  revert w. induction cs1 as [| c cs1 IH]; intro w.
  - reflexivity.
  - simpl. rewrite !events_of_seq, world_after_seq, IH. apply app_assoc.
Qed.

Lemma posted_app (l1 l2 : list Event) :
  posted (l1 ++ l2) = (posted l1 ++ posted l2)%list.
Proof. apply flat_map_app. Qed.

Lemma emitted_app (l1 l2 : list Event) :
  emitted (l1 ++ l2) = (emitted l1 ++ emitted l2)%list.
Proof. apply flat_map_app. Qed.

Lemma state_changes_app (l1 l2 : list Event) :
  state_changes (l1 ++ l2) = (state_changes l1 ++ state_changes l2)%list.
Proof. apply flat_map_app. Qed.

Lemma spawned_app (l1 l2 : list Event) :
  spawned (l1 ++ l2) = spawned l1 || spawned l2.
Proof. apply existsb_app. Qed.

Lemma signalled_app (l1 l2 : list Event) :
  signalled (l1 ++ l2) = signalled l1 || signalled l2.
Proof. apply existsb_app. Qed.

(** *** Place markers *)

Lemma to_int_small (z : Z) :
  (-2147483648 <= z <= 2147483647)%Z -> to_int z = z.
Proof.
  intro H. unfold to_int. rewrite Z.mod_small by lia. lia.
Qed.

Lemma string_app_empty (s : string) : s ++ "" = s.
Proof. induction s as [| c s IH]; simpl; [| rewrite IH]; reflexivity. Qed.

Lemma qarg_other_char (c : ascii) (s a : string) :
  c <> "%"%char -> qarg (String c s) a = String c (qarg s a).
Proof.
  intro H. destruct c as [[] [] [] [] [] [] [] []]; try reflexivity.
  exfalso. apply H. reflexivity.
Qed.

(** A marker after a text without per cent sign is replaced by the
    argument. *)
Lemma qarg_marker (prefix suffix a : string) :
  no_percent prefix = true ->
  qarg (prefix ++ "%1" ++ suffix) a = prefix ++ a ++ qarg suffix a.
Proof.
  induction prefix as [| c s IH]; intro H; [reflexivity |].
  simpl in H. apply andb_prop in H. destruct H as [Hc Hs].
  destruct (Ascii.eqb_spec c "%") as [-> | Hne]; [discriminate Hc |].
  change (String c s ++ "%1" ++ suffix) with (String c (s ++ "%1" ++ suffix)).
  rewrite (qarg_other_char c _ a Hne), (IH Hs). reflexivity.
Qed.

Lemma qarg_at_end (prefix a : string) :
  no_percent prefix = true ->
  qarg (prefix ++ "%1") a = prefix ++ a.
Proof.
  intro H. pose proof (qarg_marker prefix "" a H) as E.
  change ("%1" ++ "") with "%1" in E. change (qarg "" a) with "" in E.
  rewrite string_app_empty in E. exact E.
Qed.

(** *** One call *)

Lemma call_sets_settable (c : Call) (w : Adapter) :
  forallb (fun st => state_in st settable_states)
          (state_changes (events_of (call env c) w)) = true /\
  (state_after (call env c) w = m_state w \/
   state_in (state_after (call env c) w) settable_states = true).
Proof.
  world w.
  destruct c as [op | e | | code status]; [destruct op | | |];
    open_call; reads; destruct st;
    (split; [reflexivity | first [left; reflexivity | right; reflexivity]]).
Qed.

Lemma call_emits_at_most_one (c : Call) (w : Adapter) :
  length (emitted (events_of (call env c) w)) <= 1.
Proof.
  apply Nat.leb_le. world w.
  destruct c as [op | e | | code status]; [destruct op | | |];
    open_call; reads; destruct st; reflexivity.
Qed.

Lemma call_spawns_only_in_startAdapter (c : Call) (w : Adapter) :
  spawned (events_of (call env c) w) = true ->
  listen_ok env = true /\ c = startAdapter_call.
Proof.
  world w.
  destruct c as [op | e | | code status]; [destruct op | | |];
    open_call; reads; destruct st; simpl; intro H;
    solve [discriminate H | split; [assumption | reflexivity]].
Qed.

Lemma call_signals_only_in_interruptInferior (c : Call) (w : Adapter) :
  signalled (events_of (call env c) w) = true ->
  (0 < inferiorPid env)%Z /\ c = call_interruptInferior.
Proof.
  world w.
  destruct c as [op | e | | code status]; [destruct op | | |];
    open_call; reads; destruct st; simpl; intro H;
    solve [discriminate H
          | split; [apply Z.leb_gt; assumption | reflexivity]].
Qed.

Lemma call_keeps_collector_closed (c : Call) (w : Adapter) :
  c <> startAdapter_call ->
  collector_listening w = false ->
  collector_listening (world_after (call env c) w) = false.
Proof.
  intros Hc Hw. world w.
  destruct c as [op | e | | code status]; [destruct op | | |];
    try (exfalso; apply Hc; reflexivity);
    open_call; reads; destruct st; reflexivity.
Qed.

Lemma shutdown_closes_collector (w : Adapter) :
  collector_listening (world_after (call env shutdown_call) w) = false.
Proof. world w. destruct st; reflexivity. Qed.

(** One [shutdown] in a state whose case label posts nothing. *)
Lemma shutdown_when_idle (w : Adapter) :
  shutdown_acts (m_state w) = false ->
  m_state (world_after (call env shutdown_call) w) = m_state w /\
  posted (events_of (call env shutdown_call) w) = [] /\
  emitted (events_of (call env shutdown_call) w) = [] /\
  flagged (events_of (call env shutdown_call) w) = true.
Proof.
  intro H. world w.
  destruct st; try discriminate H; repeat split; reflexivity.
Qed.

Lemma repeated_shutdown_when_idle (n : nat) (w : Adapter) :
  shutdown_acts (m_state w) = false ->
  m_state (world_after (run_calls env (repeat shutdown_call n)) w) = m_state w /\
  posted (events_of (run_calls env (repeat shutdown_call n)) w) = [] /\
  emitted (events_of (run_calls env (repeat shutdown_call n)) w) = [].
Proof.
  revert w. induction n as [| n IH]; intros w H.
  - repeat split; reflexivity.
  - change (repeat shutdown_call (S n))
      with (shutdown_call :: repeat shutdown_call n).
    rewrite run_calls_cons.
    rewrite world_after_seq, events_of_seq, posted_app, emitted_app.
    destruct (shutdown_when_idle w H) as [Hs [Hp [He _]]].
    assert (H' : shutdown_acts
                   (m_state (world_after (call env shutdown_call) w)) = false)
      by (rewrite Hs; exact H).
    destruct (IH _ H') as [IHs [IHp IHe]].
    rewrite IHs, IHp, IHe, Hs, Hp, He. repeat split; reflexivity.
Qed.

Lemma two_shutdowns_leave_idle (w : Adapter) :
  shutdown_acts
    (m_state (world_after (run_calls env [shutdown_call; shutdown_call]) w))
    = false.
Proof. world w. destruct st; reflexivity. Qed.

(** *** Start-up *)

(** X1.  When the collector listens, [startAdapter] called in EngineStarting
    starts the gdb program of the settings with the arguments
    "--tty=<collector server>", "-i", "mi", in this order, after setting the
    working directory and the environment of the process where the start
    parameters give one.  It emits no signal, and leaves the adapter in
    AdapterStarting with the collector listening. *)
Theorem startAdapter_starts_gdb (w : Adapter) :
  m_state w = EngineStarting ->
  listen_ok env = true ->
  events_of (startAdapter env) w =
    ([SetState AdapterStarting;
      DebugMessage "TRYING TO START ADAPTER";
      CollectorListen true]
     ++ (if isEmptyString (workingDir (startParameters env)) then []
         else [ProcSetWorkingDirectory (workingDir (startParameters env))])
     ++ (if isEmpty (environment (startParameters env)) then []
         else [ProcSetEnvironment (environment (startParameters env))])
     ++ [ProcStart (gdbLocation env)
                   [("--tty=" ++ collector_serverName env)%string;
                    "-i"; "mi"]])%list /\
  emitted (events_of (startAdapter env) w) = [] /\
  world_after (startAdapter env) w =
    {| m_state := AdapterStarting;
       collector_listening := true;
       gdbProc_started := true |}.
Proof.
  intros Hw Hl. world w. open_call. rewrite Hl.
  destruct (workingDir (startParameters env));
    destruct (environment (startParameters env));
    repeat split; reflexivity.
Qed.

(** X2.  The start of a session composes without a violated assertion:
    [startAdapter] in EngineStarting with a listening collector, then
    [handleGdbStarted], then [prepareInferior], then a Done reply to
    "-file-exec-and-symbols" take the adapter through AdapterStarting,
    AdapterStarted and InferiorPreparing to InferiorPrepared, emitting
    adapterStarted and then inferiorPrepared. *)
Theorem startup_reaches_InferiorPrepared (w : Adapter) (r : GdbResponse) :
  m_state w = EngineStarting ->
  listen_ok env = true ->
  resultClass r = GdbResultDone ->
  state_changes (events_of (startup env r) w) =
    [AdapterStarting; AdapterStarted; InferiorPreparing; InferiorPrepared] /\
  emitted (events_of (startup env r) w) = [adapterStarted; inferiorPrepared] /\
  flagged (events_of (startup env r) w) = false /\
  state_after (startup env r) w = InferiorPrepared.
Proof.
  intros Hw Hl Hr. world w.
  unfold startup, prepareInferior_then, invoke. open_call.
  rewrite Hl, Hr.
  destruct (workingDir (startParameters env));
    destruct (environment (startParameters env));
    destruct (processArgs (startParameters env));
    repeat split; reflexivity.
Qed.

(** X3.  [prepareInferior] posts, in every state, the command
    "-file-exec-and-symbols" with the absolute path of the executable in
    double quotes and the continuation [handleFileExecAndSymbols] as its
    last command; when there are process arguments it first posts
    "-exec-arguments" with the arguments joined by single blanks and no
    continuation, and otherwise nothing else. *)
Theorem prepareInferior_commands (w : Adapter) :
  posted (events_of (prepareInferior env) w) =
    ((if isEmpty (processArgs (startParameters env)) then []
      else [(("-exec-arguments "
                ++ String.concat " " (processArgs (startParameters env)))%string,
             None)])
     ++ [(("-file-exec-and-symbols " ++ dquote
             ++ absoluteFilePath env (executable (startParameters env))
             ++ dquote)%string,
          Some cb_handleFileExecAndSymbols)])%list.
Proof.
  world w. open_call.
  destruct (processArgs (startParameters env)); destruct st; reflexivity.
Qed.

(** *** Interrupting *)

(** X4.  [interruptInferior] with a positive inferior PID calls
    [interruptProcess] once, on the PID narrowed to the [int] parameter of
    the callee, which is the PID itself when it is at most 2^31 - 1, and
    does nothing else to the adapter: no state change, no signal.  A failed
    interrupt is only logged, as "CANNOT INTERRUPT <pid>" with the PID as
    the engine gave it. *)
Theorem interruptInferior_with_pid (w : Adapter) :
  (0 < inferiorPid env)%Z ->
  events_of (interruptInferior env) w =
    ([DebugMessage "TRYING TO INTERUPT INFERIOR";
      InterruptProcess (to_int (inferiorPid env))
                       (interruptProcess env (to_int (inferiorPid env)))]
     ++ (if interruptProcess env (to_int (inferiorPid env)) then []
         else [DebugMessage
                 ("CANNOT INTERRUPT " ++ number (inferiorPid env))%string]))%list /\
  interrupted (events_of (interruptInferior env) w) =
    [to_int (inferiorPid env)] /\
  ((inferiorPid env <= 2147483647)%Z ->
     interrupted (events_of (interruptInferior env) w) = [inferiorPid env]) /\
  emitted (events_of (interruptInferior env) w) = [] /\
  world_after (interruptInferior env) w = w.
Proof.
  intro H. pose proof H as Hpos. apply Z.leb_gt in H.
  unfold world_after, events_of, interruptInferior.
  pose proof (qarg_at_end "CANNOT INTERRUPT " (number (inferiorPid env))
                eq_refl) as E.
  change ("CANNOT INTERRUPT " ++ "%1") with "CANNOT INTERRUPT %1" in E.
  rewrite E.
  unfold bind, when. rewrite H.
  destruct (interruptProcess env (to_int (inferiorPid env)));
    (split; [reflexivity | split; [reflexivity | split; [| split; reflexivity]]]);
    intro Hmax; rewrite (to_int_small (inferiorPid env)) by lia; reflexivity.
Qed.

(** *** Shutdown *)

(** X5.  [shutdown] called twice in a row in one of the states
    InferiorRunningRequested, InferiorRunning, InferiorStopping,
    InferiorStopped does not wait for the reply to "kill": the second call
    finds InferiorShuttingDown, reports a violated assertion and falls
    through to the exit case, so that "kill" and "-gdb-exit" are both posted
    and the adapter is in AdapterShuttingDown. *)
Theorem shutdown_twice_posts_kill_and_exit (w : Adapter) :
  In (m_state w)
     [InferiorRunningRequested; InferiorRunning; InferiorStopping;
      InferiorStopped] ->
  let run := run_calls env [shutdown_call; shutdown_call] in
  posted (events_of run w) =
    [("kill", Some cb_handleKill); ("-gdb-exit", Some cb_handleExit)] /\
  state_changes (events_of run w) =
    [InferiorShuttingDown; AdapterShuttingDown] /\
  flagged (events_of run w) = true /\
  state_after run w = AdapterShuttingDown.
Proof.
  intros H run. subst run. world w.
  destruct H as [H | [H | [H | [H | []]]]]; subst; repeat split; reflexivity.
Qed.

(** X6.  In every state other than the six the switch of [shutdown] has a
    working case for (InferiorRunningRequested, InferiorRunning,
    InferiorStopping, InferiorStopped, InferiorShuttingDown,
    InferiorShutDown), any number of [shutdown] calls posts no command,
    emits no signal and leaves the state as it is; each call only reports a
    violated assertion.  This includes the failure states such as
    InferiorShutdownFailed. *)
Theorem shutdown_does_nothing_when_idle (n : nat) (w : Adapter) :
  shutdown_acts (m_state w) = false ->
  let run := run_calls env (repeat shutdown_call n) in
  state_after run w = m_state w /\
  posted (events_of run w) = [] /\
  emitted (events_of run w) = [] /\
  (n <> 0 -> flagged (events_of run w) = true).
Proof.
  intros H run. subst run. unfold state_after.
  destruct (repeated_shutdown_when_idle n w H) as [Hs [Hp He]].
  repeat split; try assumption.
  intro Hn. destruct n as [| n]; [exfalso; apply Hn; reflexivity |].
  change (repeat shutdown_call (S n))
    with (shutdown_call :: repeat shutdown_call n).
  rewrite run_calls_cons, events_of_seq, flagged_app.
  destruct (shutdown_when_idle w H) as [_ [_ [_ Hf]]].
  rewrite Hf. reflexivity.
Qed.

(** X7.  Calling [shutdown] over and over settles after two calls: from
    every state, the state and the commands posted after 2 + n calls are
    those after two calls, and these are at most two commands. *)
Theorem shutdown_settles_after_two_calls (n : nat) (w : Adapter) :
  state_after (run_calls env (repeat shutdown_call (2 + n))) w =
    state_after (run_calls env (repeat shutdown_call 2)) w /\
  posted (events_of (run_calls env (repeat shutdown_call (2 + n))) w) =
    posted (events_of (run_calls env (repeat shutdown_call 2)) w) /\
  length (posted (events_of (run_calls env (repeat shutdown_call 2)) w)) <= 2.
Proof.
  rewrite repeat_app. unfold state_after.
  rewrite world_after_run_app, events_of_run_app, posted_app.
  pose proof (two_shutdowns_leave_idle w) as Hidle.
  change (repeat shutdown_call 2) with [shutdown_call; shutdown_call].
  destruct (repeated_shutdown_when_idle n _ Hidle) as [Hs [Hp _]].
  rewrite Hs, Hp, app_nil_r. repeat split.
  apply Nat.leb_le. world w. destruct st; reflexivity.
Qed.

(** X8.  The handler of the reply to "kill" does not look at the state.  On
    a Done reply it ends, from every state, in AdapterShuttingDown with
    "-gdb-exit" posted, inferiorShutDown emitted, the collector closed and
    no assertion reported; on any other reply it ends, from every state, in
    InferiorShutdownFailed with nothing posted. *)
Theorem handleKill_from_any_state (w : Adapter) (r : GdbResponse) :
  (resultClass r = GdbResultDone ->
     state_changes (events_of (handleKill env r) w) =
       [InferiorShutDown; AdapterShuttingDown] /\
     posted (events_of (handleKill env r) w) =
       [("-gdb-exit", Some cb_handleExit)] /\
     emitted (events_of (handleKill env r) w) = [inferiorShutDown] /\
     flagged (events_of (handleKill env r) w) = false /\
     world_after (handleKill env r) w =
       {| m_state := AdapterShuttingDown;
          collector_listening := false;
          gdbProc_started := gdbProc_started w |}) /\
  (resultClass r <> GdbResultDone ->
     state_changes (events_of (handleKill env r) w) = [InferiorShutdownFailed] /\
     posted (events_of (handleKill env r) w) = [] /\
     flagged (events_of (handleKill env r) w) = false /\
     world_after (handleKill env r) w = with_state InferiorShutdownFailed w).
Proof.
  split; intro Hr.
  - world w. open_call. rewrite Hr. repeat split; reflexivity.
  - assert (Hb : GdbResultClass_beq (resultClass r) GdbResultDone = false)
      by (destruct (resultClass r); try reflexivity;
          exfalso; apply Hr; reflexivity).
    world w. open_call. rewrite Hb. repeat split; reflexivity.
Qed.

(** X14.  A failed kill ends the teardown: after [shutdown] in one of the
    states InferiorRunningRequested, InferiorRunning, InferiorStopping,
    InferiorStopped and a reply to "kill" that is not Done, the adapter is
    in InferiorShutdownFailed, for which the switch of [shutdown] has no
    case, so that no number of further [shutdown] calls ever posts
    "-gdb-exit": "kill" stays the only command posted. *)
Theorem failed_kill_blocks_exit (n : nat) (w : Adapter) (r : GdbResponse) :
  In (m_state w)
     [InferiorRunningRequested; InferiorRunning; InferiorStopping;
      InferiorStopped] ->
  resultClass r <> GdbResultDone ->
  let run := run_calls env (shutdown_call :: call_op (op_handleKill r)
                              :: repeat shutdown_call n) in
  posted (events_of run w) = [("kill", Some cb_handleKill)] /\
  state_after run w = InferiorShutdownFailed.
Proof.
  intros H Hr run. subst run.
  assert (Hb : GdbResultClass_beq (resultClass r) GdbResultDone = false)
    by (destruct (resultClass r); try reflexivity;
        exfalso; apply Hr; reflexivity).
  change (shutdown_call :: call_op (op_handleKill r) :: repeat shutdown_call n)
    with ([shutdown_call; call_op (op_handleKill r)]
            ++ repeat shutdown_call n)%list.
  unfold state_after.
  rewrite world_after_run_app, events_of_run_app, posted_app.
  assert (Hfirst :
    m_state (world_after
               (run_calls env [shutdown_call; call_op (op_handleKill r)]) w)
      = InferiorShutdownFailed /\
    posted (events_of
              (run_calls env [shutdown_call; call_op (op_handleKill r)]) w)
      = [("kill", Some cb_handleKill)]).
  { world w. simpl run_calls. open_call.
    destruct H as [H | [H | [H | [H | []]]]]; subst;
      simpl; rewrite Hb; split; reflexivity. }
  destruct Hfirst as [Hs1 Hp1].
  assert (Hidle : shutdown_acts
            (m_state (world_after
               (run_calls env [shutdown_call; call_op (op_handleKill r)]) w))
            = false) by (rewrite Hs1; reflexivity).
  destruct (repeated_shutdown_when_idle n _ Hidle) as [Hs [Hp _]].
  rewrite Hs, Hp, Hs1, Hp1. split; reflexivity.
Qed.

(** *** Any sequence of calls *)

(** X9.  Whatever member functions are called, in whatever order and with
    whatever replies, the only states the adapter ever sets are the eleven
    arguments of its [setState] calls.  The adapter therefore ends in the
    state it began in or in one of these: it never moves by itself to
    EngineStarting, InferiorStarting, InferiorRunning, InferiorStopping,
    InferiorStopped or AdapterShutDown. *)
Theorem run_sets_only_settable_states (cs : list Call) (w : Adapter) :
  forallb (fun st => state_in st settable_states)
          (state_changes (events_of (run_calls env cs) w)) = true /\
  (state_after (run_calls env cs) w = m_state w \/
   state_in (state_after (run_calls env cs) w) settable_states = true).
Proof.
  revert w. induction cs as [| c cs IH]; intro w.
  - split; [reflexivity | left; reflexivity].
  - rewrite run_calls_cons. unfold state_after.
    rewrite events_of_seq, world_after_seq, state_changes_app, forallb_app.
    destruct (call_sets_settable c w) as [Hc1 Hc2].
    destruct (IH (world_after (call env c) w)) as [IH1 IH2].
    unfold state_after in *.
    split.
    + rewrite Hc1, IH1. reflexivity.
    + destruct IH2 as [IH2 | IH2].
      * rewrite IH2. exact Hc2.
      * right. exact IH2.
Qed.

(** X10.  The gdb process is started by [startAdapter] and by nothing else:
    if a sequence of calls starts it, then [startAdapter] is among the calls
    and the collector could listen. *)
Theorem run_spawns_only_in_startAdapter (cs : list Call) (w : Adapter) :
  spawned (events_of (run_calls env cs) w) = true ->
  listen_ok env = true /\ In startAdapter_call cs.
Proof.
  revert w. induction cs as [| c cs IH]; intros w H.
  - discriminate H.
  - rewrite run_calls_cons, events_of_seq, spawned_app in H.
    apply orb_prop in H. destruct H as [H | H].
    + destruct (call_spawns_only_in_startAdapter c w H) as [Hl Hc].
      split; [exact Hl | left; exact Hc].
    + destruct (IH _ H) as [Hl Hin].
      split; [exact Hl | right; exact Hin].
Qed.

(** X11.  A process is interrupted by [interruptInferior] and by nothing
    else, and only when the inferior has a positive PID: if a sequence of
    calls interrupts a process, then [interruptInferior] is among the calls
    and the PID is positive. *)
Theorem run_interrupts_only_with_pid (cs : list Call) (w : Adapter) :
  signalled (events_of (run_calls env cs) w) = true ->
  (0 < inferiorPid env)%Z /\ In call_interruptInferior cs.
Proof.
  revert w. induction cs as [| c cs IH]; intros w H.
  - discriminate H.
  - rewrite run_calls_cons, events_of_seq, signalled_app in H.
    apply orb_prop in H. destruct H as [H | H].
    + destruct (call_signals_only_in_interruptInferior c w H) as [Hp Hc].
      split; [exact Hp | left; exact Hc].
    + destruct (IH _ H) as [Hp Hin].
      split; [exact Hp | right; exact Hin].
Qed.

(** X12.  Every call of a member function emits at most one signal, so a
    sequence of calls emits at most as many signals as it has calls. *)
Theorem run_emits_at_most_one_signal_per_call (cs : list Call) (w : Adapter) :
  length (emitted (events_of (run_calls env cs) w)) <= length cs.
Proof.
  revert w. induction cs as [| c cs IH]; intro w.
  - apply Nat.le_refl.
  - rewrite run_calls_cons, events_of_seq, emitted_app, length_app.
    pose proof (call_emits_at_most_one c w) as Hc.
    pose proof (IH (world_after (call env c) w)) as Hcs.
    simpl length. lia.
Qed.

(** X13.  Once [shutdown] has been called, the collector stays closed
    through every later call until [startAdapter] is called again: after a
    sequence of calls with a [shutdown] that no [startAdapter] follows, the
    collector is not listening. *)
Theorem collector_closed_after_last_shutdown
    (before after : list Call) (w : Adapter) :
  ~ In startAdapter_call after ->
  collector_listening
    (world_after (run_calls env (before ++ shutdown_call :: after)) w) = false.
Proof.
  intro Hn. rewrite world_after_run_app, run_calls_cons, world_after_seq.
  generalize (shutdown_closes_collector (world_after (run_calls env before) w)).
  generalize (world_after (call env shutdown_call)
                (world_after (run_calls env before) w)).
  clear w. induction after as [| c cs IH]; intros w Hw.
  - exact Hw.
  - rewrite run_calls_cons, world_after_seq.
    apply IH.
    + intro Hin. apply Hn. right. exact Hin.
    + apply call_keeps_collector_closed; [| exact Hw].
      intro Hc. apply Hn. left. exact Hc.
Qed.

End Runs.

(** ** The further properties at sample inputs *)

Lemma startAdapter_starts_gdb_witness :
  m_state fresh_adapter = EngineStarting /\
  listen_ok live_host = true /\
  started_with (events_of (startAdapter live_host) fresh_adapter) =
    [("/usr/bin/gdb", ["--tty=/tmp/collector"; "-i"; "mi"])].
Proof.
  split; [reflexivity | split; [reflexivity |]].
  destruct (startAdapter_starts_gdb live_host fresh_adapter eq_refl eq_refl)
    as [He _].
  rewrite He. reflexivity.
Defined.

Lemma startup_reaches_InferiorPrepared_witness :
  m_state fresh_adapter = EngineStarting /\
  listen_ok live_host = true /\
  resultClass done = GdbResultDone /\
  state_after (startup live_host done) fresh_adapter = InferiorPrepared.
Proof.
  split; [reflexivity | split; [reflexivity | split; [reflexivity |]]].
  apply (startup_reaches_InferiorPrepared live_host fresh_adapter done);
    reflexivity.
Defined.

Lemma interruptInferior_with_pid_witness :
  (0 < inferiorPid live_host)%Z /\
  events_of (interruptInferior live_host) (adapter_in InferiorRunning) =
    [DebugMessage "TRYING TO INTERUPT INFERIOR";
     InterruptProcess 4242 false;
     DebugMessage "CANNOT INTERRUPT 4242"].
Proof.
  assert (H : (0 < inferiorPid live_host)%Z) by (simpl; lia).
  split; [exact H |].
  destruct (interruptInferior_with_pid live_host (adapter_in InferiorRunning) H)
    as [He _].
  rewrite He. reflexivity.
Defined.

Lemma shutdown_twice_posts_kill_and_exit_witness :
  In (m_state (adapter_in InferiorRunning))
     [InferiorRunningRequested; InferiorRunning; InferiorStopping;
      InferiorStopped] /\
  posted (events_of (run_calls bare_host [shutdown_call; shutdown_call])
                    (adapter_in InferiorRunning)) =
    [("kill", Some cb_handleKill); ("-gdb-exit", Some cb_handleExit)].
Proof.
  assert (H : In (m_state (adapter_in InferiorRunning))
                 [InferiorRunningRequested; InferiorRunning; InferiorStopping;
                  InferiorStopped]) by (simpl; auto).
  split; [exact H |].
  apply (shutdown_twice_posts_kill_and_exit bare_host
           (adapter_in InferiorRunning) H).
Defined.

Lemma shutdown_does_nothing_when_idle_witness :
  shutdown_acts (m_state (adapter_in InferiorShutdownFailed)) = false /\
  state_after (run_calls bare_host (repeat shutdown_call 3))
              (adapter_in InferiorShutdownFailed) = InferiorShutdownFailed /\
  posted (events_of (run_calls bare_host (repeat shutdown_call 3))
                    (adapter_in InferiorShutdownFailed)) = [].
Proof.
  split; [reflexivity |].
  destruct (shutdown_does_nothing_when_idle bare_host 3
              (adapter_in InferiorShutdownFailed) eq_refl) as [Hs [Hp _]].
  split; assumption.
Defined.

Lemma handleKill_from_any_state_witness :
  state_after (handleKill bare_host done) (adapter_in AdapterStarted)
    = AdapterShuttingDown /\
  state_after (handleKill bare_host (error "no process"))
              (adapter_in AdapterStarted)
    = InferiorShutdownFailed.
Proof.
  split.
  - destruct (proj1 (handleKill_from_any_state bare_host
                       (adapter_in AdapterStarted) done) eq_refl)
      as [_ [_ [_ [_ Hw]]]].
    unfold state_after. rewrite Hw. reflexivity.
  - assert (Hr : resultClass (error "no process") <> GdbResultDone)
      by (simpl; discriminate).
    destruct (proj2 (handleKill_from_any_state bare_host
                       (adapter_in AdapterStarted) (error "no process")) Hr)
      as [_ [_ [_ Hw]]].
    unfold state_after. rewrite Hw. reflexivity.
Defined.

Lemma run_spawns_only_in_startAdapter_witness :
  spawned (events_of (run_calls live_host [startAdapter_call]) fresh_adapter)
    = true /\
  listen_ok live_host = true /\
  In startAdapter_call [startAdapter_call].
Proof.
  assert (H : spawned (events_of (run_calls live_host [startAdapter_call])
                                 fresh_adapter) = true) by reflexivity.
  split; [exact H |].
  apply (run_spawns_only_in_startAdapter live_host [startAdapter_call]
           fresh_adapter H).
Defined.

Lemma run_interrupts_only_with_pid_witness :
  signalled (events_of (run_calls live_host [shutdown_call; call_interruptInferior])
                       (adapter_in InferiorRunning)) = true /\
  (0 < inferiorPid live_host)%Z /\
  In call_interruptInferior [shutdown_call; call_interruptInferior].
Proof.
  assert (H : signalled
                (events_of (run_calls live_host
                                      [shutdown_call; call_interruptInferior])
                           (adapter_in InferiorRunning)) = true)
    by reflexivity.
  split; [exact H |].
  apply (run_interrupts_only_with_pid live_host
           [shutdown_call; call_interruptInferior]
           (adapter_in InferiorRunning) H).
Defined.

Lemma collector_closed_after_last_shutdown_witness :
  ~ In startAdapter_call [call_interruptInferior; call_handleGdbError Crashed] /\
  collector_listening
    (world_after
       (run_calls live_host
          ([startAdapter_call]
           ++ shutdown_call
              :: [call_interruptInferior; call_handleGdbError Crashed]))
       fresh_adapter) = false.
Proof.
  assert (H : ~ In startAdapter_call
                   [call_interruptInferior; call_handleGdbError Crashed])
    by (simpl; intros [E | [E | []]]; discriminate E).
  split; [exact H |].
  apply (collector_closed_after_last_shutdown live_host [startAdapter_call]
           [call_interruptInferior; call_handleGdbError Crashed]
           fresh_adapter H).
Defined.

Lemma failed_kill_blocks_exit_witness :
  In (m_state (adapter_in InferiorStopped))
     [InferiorRunningRequested; InferiorRunning; InferiorStopping;
      InferiorStopped] /\
  resultClass (error "no process") <> GdbResultDone /\
  posted (events_of
            (run_calls bare_host
               (shutdown_call :: call_op (op_handleKill (error "no process"))
                  :: repeat shutdown_call 2))
            (adapter_in InferiorStopped)) = [("kill", Some cb_handleKill)].
Proof.
  assert (H : In (m_state (adapter_in InferiorStopped))
                 [InferiorRunningRequested; InferiorRunning; InferiorStopping;
                  InferiorStopped]) by (simpl; auto).
  assert (Hr : resultClass (error "no process") <> GdbResultDone)
    by (simpl; discriminate).
  split; [exact H | split; [exact Hr |]].
  apply (failed_kill_blocks_exit bare_host 2 (adapter_in InferiorStopped)
           (error "no process") H Hr).
Defined.
